(** * A shallow embedding of [app.py], the interactive OpenAI request proxy.

    The program is a FastAPI application with one piece of shared state, the
    dictionary [open_requests] that maps a request id to a
    [ChatCompletionRequest(request, response)].  Every handler is modelled as
    a function of the store it reads and of the values its environment
    supplies (the uuid it draws, the clock, the outcome of the upstream
    calls, the store snapshots a polling loop observes after each
    [await asyncio.sleep(1)]), and returns its outcome together with the
    store it leaves behind. *)

From Stdlib Require Import String Ascii ZArith List Bool Lia.
From stdpp Require Import base gmap list.
Import ListNotations.

#[global] Set Warnings "-register-all".
Open Scope Z_scope.

(* ===================================================================== *)
(** ** Python strings                                                     *)
(* ===================================================================== *)

(** A Python [str] is a sequence of Unicode code points. *)
Abbreviation pystr := (list Z).

(** Literals of the source are ASCII; [lit] turns one into a [pystr]. *)
Definition lit (s : string) : pystr :=
  map (fun a => Z.of_nat (nat_of_ascii a)) (list_ascii_of_string s).

(** A literal in which each backquote stands for a double quote, for JSON
    text and the like. *)
Definition qlit (s : string) : pystr :=
  map (fun c => if c =? 96 then 34 else c) (lit s).

Definition pystr_eqb (a b : pystr) : bool :=
  if decide (a = b) then true else false.

(** [str.isspace] for a single code point: the characters that CPython's
    [str.split()] and [str.strip()] treat as whitespace (bidirectional
    class WS, B or S, or general category Zs). *)
Definition py_isspace (c : Z) : bool :=
  ((9 <=? c) && (c <=? 13)) || ((28 <=? c) && (c <=? 32))
  || (c =? 133) || (c =? 160) || (c =? 5760)
  || ((8192 <=? c) && (c <=? 8202))
  || (c =? 8232) || (c =? 8233) || (c =? 8239) || (c =? 8287)
  || (c =? 12288).

(** [s.split()] with no separator: runs of whitespace separate the
    fields, leading and trailing whitespace produce no empty field.
    [cur] is the field being read, reversed. *)
Fixpoint split_go (s : pystr) (cur : pystr) : list pystr :=
  match s with
  | [] => match cur with [] => [] | _ => [rev cur] end
  | c :: s' =>
      if py_isspace c then
        match cur with
        | [] => split_go s' []
        | _ => rev cur :: split_go s' []
        end
      else split_go s' (c :: cur)
  end.

Definition py_split (s : pystr) : list pystr := split_go s [].

(** [s.strip()]: drop leading and trailing whitespace. *)
Fixpoint lstrip_ws (s : pystr) : pystr :=
  match s with
  | c :: s' => if py_isspace c then lstrip_ws s' else s
  | [] => []
  end.

Definition py_strip (s : pystr) : pystr := rev (lstrip_ws (rev (lstrip_ws s))).

(* ===================================================================== *)
(** ** JSON values and Python dicts                                       *)
(* ===================================================================== *)

(** What [json.loads] produces: [None], [bool], [int], [float] (kept as its
    lexeme: no claim looks at its value), [str], [list] and [dict].  A dict
    is an association list in insertion order with distinct keys. *)
Inductive json : Type :=
| JNull
| JBool (b : bool)
| JInt (z : Z)
| JFloat (lexeme : pystr)
| JStr (s : pystr)
| JArr (l : list json)
| JObj (kvs : list (pystr * json)).

(** [d[k] = v] on a dict: a present key keeps its position and takes the
    new value, a new key goes to the end. *)
Fixpoint dict_set {V} (d : list (pystr * V)) (k : pystr) (v : V) : list (pystr * V) :=
  match d with
  | [] => [(k, v)]
  | (k', v') :: d' =>
      if pystr_eqb k k' then (k, v) :: d' else (k', v') :: dict_set d' k v
  end.

(** [d.get(k)] / [k in d]. *)
Fixpoint dict_lookup {V} (d : list (pystr * V)) (k : pystr) : option V :=
  match d with
  | [] => None
  | (k', v) :: d' => if pystr_eqb k k' then Some v else dict_lookup d' k
  end.

(* ===================================================================== *)
(** ** [json.loads]                                                       *)
(* ===================================================================== *)

(** [await request.json()] is [json.loads] on the decoded body.  The parser
    follows CPython's [json.scanner]/[json.decoder] in their default (strict)
    mode: whitespace is [ \t\n\r]; [NaN], [Infinity] and [-Infinity] are
    accepted; control characters inside strings are not; a repeated key
    keeps its first position and takes its last value; anything but
    whitespace after the value is "Extra data".  [None] is a
    [json.JSONDecodeError].  Every call on the nesting chain consumes at least
    one character, so the fuel [json_loads] gives is never the reason for a
    [None]. *)
Definition json_ws (c : Z) : bool := (c =? 32) || (c =? 9) || (c =? 10) || (c =? 13).

Fixpoint skip_ws (s : pystr) : pystr :=
  match s with
  | c :: s' => if json_ws c then skip_ws s' else s
  | [] => []
  end.

(** [s.startswith(p)], returning what follows [p]. *)
Fixpoint strip_prefix (p s : pystr) : option pystr :=
  match p, s with
  | [], _ => Some s
  | c :: p', d :: s' => if c =? d then strip_prefix p' s' else None
  | _ :: _, [] => None
  end.

Definition is_digit (c : Z) : bool := (48 <=? c) && (c <=? 57).

(** The longest run of decimal digits at the front of [s]. *)
Fixpoint take_digits (s : pystr) : pystr * pystr :=
  match s with
  | c :: s' =>
      if is_digit c then let '(ds, r) := take_digits s' in (c :: ds, r) else ([], s)
  | [] => ([], [])
  end.

Definition digits_value (ds : pystr) : Z :=
  fold_left (fun acc d => acc * 10 + (d - 48)) ds 0.

(** [NUMBER_RE]: an optional minus, then [0] or a non-zero digit followed
    by digits, an optional fraction (a dot and at least one digit), an
    optional exponent ([e] or [E], an optional sign, at least one digit).
    An integer lexeme becomes an [int], one with a fraction or an exponent a
    [float]. *)
Definition scan_number (s : pystr) : option (json * pystr) :=
  let '(sign, s1) := match s with 45 :: r => ([45], r) | _ => ([], s) end in
  ip ← match s1 with
       | 48 :: r => Some ([48], r)
       | c :: _ => if (49 <=? c) && (c <=? 57) then Some (take_digits s1) else None
       | [] => None
       end;
  let '(int_part, r1) := ip in
  let '(frac, r2) :=
    match r1 with
    | 46 :: r =>
        let '(ds, r') := take_digits r in
        match ds with [] => ([], r1) | _ => (46 :: ds, r') end
    | _ => ([], r1)
    end in
  let '(exp, r3) :=
    match r2 with
    | e :: r =>
        if (e =? 101) || (e =? 69) then
          let '(esign, r') := match r with
                              | c :: r'' => if (c =? 43) || (c =? 45) then ([c], r'') else ([], r)
                              | [] => ([], r)
                              end in
          let '(ds, r'') := take_digits r' in
          match ds with [] => ([], r2) | _ => (e :: esign ++ ds, r'') end
        else ([], r2)
    | [] => ([], r2)
    end in
  match frac, exp with
  | [], [] =>
      let v := digits_value int_part in
      Some (JInt (match sign with [] => v | _ => - v end), r3)
  | _, _ => Some (JFloat (sign ++ int_part ++ frac ++ exp), r3)
  end.

Definition hex_value (c : Z) : option Z :=
  if is_digit c then Some (c - 48)
  else if (65 <=? c) && (c <=? 70) then Some (c - 55)
  else if (97 <=? c) && (c <=? 102) then Some (c - 87)
  else None.

(** [_decode_uXXXX]: the four hex digits after [\u]. *)
Definition hex4 (s : pystr) : option (Z * pystr) :=
  match s with
  | a :: b :: c :: d :: r =>
      va ← hex_value a; vb ← hex_value b; vc ← hex_value c; vd ← hex_value d;
      Some (((va * 16 + vb) * 16 + vc) * 16 + vd, r)
  | _ => None
  end.

(** The single-character escapes of [BACKSLASH]. *)
Definition simple_escape (c : Z) : option Z :=
  if c =? 34 then Some 34 else if c =? 92 then Some 92
  else if c =? 47 then Some 47 else if c =? 98 then Some 8
  else if c =? 102 then Some 12 else if c =? 110 then Some 10
  else if c =? 114 then Some 13 else if c =? 116 then Some 9
  else None.

(** [scanstring] after the opening quote; [acc] is the decoded prefix,
    reversed.  A high surrogate followed by [\u] and a low surrogate is
    combined into one code point. *)
Fixpoint scan_string (fuel : nat) (s : pystr) (acc : pystr) : option (pystr * pystr) :=
  match fuel with
  | O => None
  | S n =>
      match s with
      | [] => None
      | 34 :: r => Some (rev acc, r)
      | 92 :: 117 :: r =>
          '(u, r1) ← hex4 r;
          if (55296 <=? u) && (u <=? 56319) then
            match r1 with
            | 92 :: 117 :: r2 =>
                '(u2, r3) ← hex4 r2;
                if (56320 <=? u2) && (u2 <=? 57343) then
                  scan_string n r3 (65536 + Z.lor (Z.shiftl (u - 55296) 10) (u2 - 56320) :: acc)
                else scan_string n r1 (u :: acc)
            | _ => scan_string n r1 (u :: acc)
            end
          else scan_string n r1 (u :: acc)
      | 92 :: c :: r => e ← simple_escape c; scan_string n r (e :: acc)
      | c :: r => if c <? 32 then None else scan_string n r (c :: acc)
      end
  end.

(** [scan_once] and its object and array loops.  [parse_members] runs on
    the text after [{] (and after each [,]) with whitespace skipped;
    [parse_elements] likewise after [[] and each [,]. *)
Fixpoint parse_value (fuel : nat) (s : pystr) : option (json * pystr) :=
  match fuel with
  | O => None
  | S n =>
      match s with
      | 34 :: r => '(str, r') ← scan_string (length r) r []; Some (JStr str, r')
      | 123 :: r =>
          match skip_ws r with
          | 125 :: r' => Some (JObj [], r')
          | r' => parse_members n r' []
          end
      | 91 :: r =>
          match skip_ws r with
          | 93 :: r' => Some (JArr [], r')
          | r' => parse_elements n r' []
          end
      | _ =>
          match strip_prefix (lit "null") s with
          | Some r => Some (JNull, r)
          | None =>
          match strip_prefix (lit "true") s with
          | Some r => Some (JBool true, r)
          | None =>
          match strip_prefix (lit "false") s with
          | Some r => Some (JBool false, r)
          | None =>
          match scan_number s with
          | Some res => Some res
          | None =>
          match strip_prefix (lit "NaN") s with
          | Some r => Some (JFloat (lit "NaN"), r)
          | None =>
          match strip_prefix (lit "Infinity") s with
          | Some r => Some (JFloat (lit "Infinity"), r)
          | None =>
          match strip_prefix (lit "-Infinity") s with
          | Some r => Some (JFloat (lit "-Infinity"), r)
          | None => None
          end end end end end end end
      end
  end
with parse_members (fuel : nat) (s : pystr) (acc : list (pystr * json))
  : option (json * pystr) :=
  match fuel with
  | O => None
  | S n =>
      match s with
      | 34 :: r =>
          '(key, r1) ← scan_string (length r) r [];
          match skip_ws r1 with
          | 58 :: r2 =>
              '(v, r3) ← parse_value n (skip_ws r2);
              let acc' := dict_set acc key v in
              match skip_ws r3 with
              | 125 :: r4 => Some (JObj acc', r4)
              | 44 :: r4 => parse_members n (skip_ws r4) acc'
              | _ => None
              end
          | _ => None
          end
      | _ => None
      end
  end
with parse_elements (fuel : nat) (s : pystr) (acc : list json)
  : option (json * pystr) :=
  match fuel with
  | O => None
  | S n =>
      '(v, r1) ← parse_value n s;
      match skip_ws r1 with
      | 93 :: r2 => Some (JArr (rev (v :: acc)), r2)
      | 44 :: r2 => parse_elements n (skip_ws r2) (v :: acc)
      | _ => None
      end
  end.

(** [json.loads(text)]; [None] stands for [json.JSONDecodeError]. *)
Definition json_loads (text : pystr) : option json :=
  '(v, r) ← parse_value (3 * length text + 3)%nat (skip_ws text);
  match skip_ws r with
  | [] => Some v
  | _ => None
  end.

(* ===================================================================== *)
(** ** Exceptions, the error monad and the Python operations used          *)
(* ===================================================================== *)

(** The exceptions the handlers can raise.  [APIError] is any exception
    of the [openai] client (connection, authentication, status errors).
    [ValueError] and [UnicodeEncodeError] come from rendering a
    [JSONResponse]; [RequestValidationError] is raised by FastAPI, before
    the handler runs, for a required form field with no value. *)
Inductive exn : Type :=
| HTTPException (status_code : Z)
| KeyError
| AttributeError
| TypeError
| IndexError
| JSONDecodeError
| APIError
| ValueError
| UnicodeEncodeError
| RequestValidationError.

(** A computation that returns a value or raises. *)
Definition py (A : Type) : Type := (exn + A)%type.

Definition py_ret {A} (a : A) : py A := inr a.
Definition py_raise {A} (e : exn) : py A := inl e.
Definition py_bind {A B} (m : py A) (k : A -> py B) : py B :=
  match m with inl e => inl e | inr a => k a end.

Notation "'let*' x ':=' m 'in' k" := (py_bind m (fun x => k))
  (at level 200, x name, m at level 100, k at level 200).

(** A form field declared [Form(None)] is a [str] or [None]. *)
Definition opt_json (o : option pystr) : json :=
  match o with Some s => JStr s | None => JNull end.

(** [x.get(k, default)]: only a dict has [get]. *)
Definition py_get (x : json) (k : pystr) (default : json) : py json :=
  match x with
  | JObj kvs => py_ret (match dict_lookup kvs k with Some v => v | None => default end)
  | _ => py_raise AttributeError
  end.

(** [for m in x]: a list yields its items, a str its one-character
    strings, a dict its keys; [None], numbers and bools are not iterable. *)
Definition py_iter (x : json) : py (list json) :=
  match x with
  | JArr l => py_ret l
  | JStr s => py_ret (map (fun c => JStr [c]) s)
  | JObj kvs => py_ret (map (fun kv => JStr kv.1) kvs)
  | _ => py_raise TypeError
  end.

(** [x.split()]: only a str has [split]. *)
Definition py_str_split (x : json) : py (list pystr) :=
  match x with
  | JStr s => py_ret (py_split s)
  | _ => py_raise AttributeError
  end.

(** [s.startswith(p)] as a boolean, and [p in s] on strings. *)
Definition is_prefix (p s : pystr) : bool :=
  match strip_prefix p s with Some _ => true | None => false end.

Fixpoint is_substring (p s : pystr) : bool :=
  is_prefix p s || match s with [] => false | _ :: s' => is_substring p s' end.

(** [k in x] for a str [k]: key test on a dict, item test on a list,
    substring test on a str; [TypeError] on anything else. *)
Definition py_contains (x : json) (k : pystr) : py bool :=
  match x with
  | JObj kvs => py_ret (match dict_lookup kvs k with Some _ => true | None => false end)
  | JArr l => py_ret (existsb (fun j => match j with JStr s => pystr_eqb s k | _ => false end) l)
  | JStr s => py_ret (is_substring k s)
  | _ => py_raise TypeError
  end.

(** [x[k]] for a str [k]: only a dict accepts a str index. *)
Definition py_getitem (x : json) (k : pystr) : py json :=
  match x with
  | JObj kvs => match dict_lookup kvs k with Some v => py_ret v | None => py_raise KeyError end
  | _ => py_raise TypeError
  end.

(* ===================================================================== *)
(** ** The store [open_requests]                                          *)
(* ===================================================================== *)

(** [class ChatCompletionRequest(BaseModel)]: the parsed body and the
    response set by the review form ([None] until then). *)
Record ChatCompletionRequest : Type := {
  request : json;
  response : option json
}.

(** [open_requests = {}]: request id to pending request. *)
Abbreviation store := (gmap pystr ChatCompletionRequest).

(** What a handler returns, and the HTTP status the client sees.  An
    exception other than [HTTPException] reaches Starlette's
    [ServerErrorMiddleware], which answers 500; FastAPI's own handler
    answers a [RequestValidationError] with 422.  [RedirectResponse]
    defaults to 307. *)
Record review_page : Type := {
  page_request : json;
  page_id : pystr;
  page_content : pystr;
  page_tool_name : pystr;
  page_tool_arguments : pystr
}.

Inductive http_response : Type :=
| JSONResponse (content : json)
| HTMLReviewPage (page : review_page)
| RedirectResponse (url : pystr).

Inductive outcome : Type :=
| Returned (r : http_response)
| Raised (e : exn).

Definition status_of (o : outcome) : Z :=
  match o with
  | Returned (JSONResponse _) => 200
  | Returned (HTMLReviewPage _) => 200
  | Returned (RedirectResponse _) => 307
  | Raised (HTTPException c) => c
  | Raised RequestValidationError => 422
  | Raised _ => 500
  end.

(* ===================================================================== *)
(** ** [POST /r/{request_id}]: [modify_request]                           *)
(* ===================================================================== *)

(** [sum(len(m.get("content", "").split()) for m in
    request.request.get("messages", []))]. *)
Fixpoint sum_message_tokens (ms : list json) : py Z :=
  match ms with
  | [] => py_ret 0
  | m :: ms' =>
      let* c := py_get m (lit "content") (JStr []) in
      let* toks := py_str_split c in
      let* rest := sum_message_tokens ms' in
      py_ret (Z.of_nat (length toks) + rest)
  end.

Definition prompt_tokens (req : json) : py Z :=
  let* msgs := py_get req (lit "messages") (JArr []) in
  let* ms := py_iter msgs in
  sum_message_tokens ms.

(** The one entry of [tool_calls] (lines 211-215). *)
Definition tool_call_json (call_uuid : pystr) (tool_name tool_arguments : option pystr) : json :=
  JObj [(lit "id", JStr (lit "call_" ++ call_uuid));
        (lit "type", JStr (lit "function"));
        (lit "function", JObj [(lit "name", opt_json tool_name);
                               (lit "arguments", opt_json tool_arguments)])].

(** The [message] dict and [completion_tokens] of the two branches.  In the
    tool-call branch [tool_calls] is inserted before [content]. *)
Definition build_message (response_type : pystr) (content tool_name tool_arguments : option pystr)
    (call_uuid : pystr) : py (json * Z) :=
  if pystr_eqb response_type (lit "content") then
    let* toks := py_str_split (opt_json content) in
    py_ret (JObj [(lit "content", opt_json content)], Z.of_nat (length toks))
  else
    let tool_call := tool_call_json call_uuid tool_name tool_arguments in
    let* t1 := py_str_split (opt_json tool_name) in
    let* t2 := py_str_split (opt_json tool_arguments) in
    py_ret (JObj [(lit "tool_calls", JArr [tool_call]); (lit "content", JNull)],
            Z.of_nat (length t1) + Z.of_nat (length t2)).

(** The [response] dict of lines 190-224; [now] is [int(time.time())] and
    [call_uuid] is [str(uuid.uuid4())]. *)
Definition build_response (request_id : pystr) (req : json) (response_type : pystr)
    (content tool_name tool_arguments : option pystr) (now : Z) (call_uuid : pystr)
    : py json :=
  let* model := py_get req (lit "model") (JStr (lit "gpt-3.5-turbo")) in
  let* prompt := prompt_tokens req in
  let* mc := build_message response_type content tool_name tool_arguments call_uuid in
  let '(message, completion) := mc in
  py_ret (JObj
    [(lit "id", JStr (lit "chatcmpl-" ++ request_id));
     (lit "object", JStr (lit "chat.completion"));
     (lit "created", JInt now);
     (lit "model", model);
     (lit "choices", JArr [JObj [(lit "index", JInt 0);
                                 (lit "message", message);
                                 (lit "finish_reason", JStr (lit "stop"))]]);
     (lit "usage", JObj [(lit "prompt_tokens", JInt prompt);
                         (lit "completion_tokens", JInt completion);
                         (lit "total_tokens", JInt (prompt + completion))])]).

(** The handler.  The store is written only at line 226, after the whole
    response has been built, so a raise leaves it as it was. *)
Definition modify_request (st : store) (request_id response_type : pystr)
    (content tool_name tool_arguments : option pystr) (now : Z) (call_uuid : pystr)
    : outcome * store :=
  match st !! request_id with
  | None => (Raised (HTTPException 404), st)
  | Some r =>
      match build_response request_id (request r) response_type content tool_name
              tool_arguments now call_uuid with
      | inl e => (Raised e, st)
      | inr resp =>
          (Returned (RedirectResponse (lit "/")),
           <[request_id := {| request := request r; response := Some resp |}]> st)
      end
  end.

(** How FastAPI fills a [Form] parameter from the submitted form
    ([_get_multidict_value] in [fastapi.dependencies.utils]): a field that
    is absent ([None] here) or sent as the empty string has no value, and
    then takes its default. *)
Definition form_field (v : option pystr) : option pystr :=
  match v with Some [] => None | _ => v end.

(** The route [POST /r/{request_id}] as a client reaches it: FastAPI reads
    the four form fields first.  [response_type] is declared [Form(...)],
    so with no value the request fails validation ([RequestValidationError],
    answered 422) and the handler never runs; the three [Form(None)] fields
    without a value become [None]. *)
Definition modify_request_route (st : store) (request_id : pystr)
    (response_type content tool_name tool_arguments : option pystr) (now : Z)
    (call_uuid : pystr) : outcome * store :=
  match form_field response_type with
  | None => (Raised RequestValidationError, st)
  | Some rt =>
      modify_request st request_id rt (form_field content) (form_field tool_name)
        (form_field tool_arguments) now call_uuid
  end.

(* ===================================================================== *)
(** ** [GET /r/{request_id}]: [get_request]                               *)
(* ===================================================================== *)

(** The part of the upstream completion the draft reads. *)
Record tool_call : Type := { tc_name : pystr; tc_arguments : pystr }.

Record draft_message : Type := {
  dm_tool_calls : option (list tool_call);
  dm_content : option pystr
}.

(** What [openai_client.chat.completions.create(...)] does: raise, or
    return a completion with its [choices]. *)
Inductive draft_outcome : Type :=
| DraftRaised (e : exn)
| DraftCompletion (choices : list draft_message).

(** Lines 108-114: copy [messages], [tools] and [tool_choice] when present. *)
Definition add_kwarg (req : json) (key : pystr) (kw : list (pystr * json))
    : py (list (pystr * json)) :=
  let* present := py_contains req key in
  if present then (let* v := py_getitem req key in py_ret (dict_set kw key v))
  else py_ret kw.

Definition build_kwargs (req : json) : py (list (pystr * json)) :=
  let* kw1 := add_kwarg req (lit "messages") [] in
  let* kw2 := add_kwarg req (lit "tools") kw1 in
  add_kwarg req (lit "tool_choice") kw2.

(** Lines 116-135: [(content, tool_name, tool_arguments)] after the
    [try]; [except Exception] keeps the empty initial values.  An empty
    [choices] raises [IndexError] inside the [try]. *)
Definition draft_fields (o : draft_outcome) : pystr * pystr * pystr :=
  match o with
  | DraftRaised _ => ([], [], [])
  | DraftCompletion [] => ([], [], [])
  | DraftCompletion (m :: _) =>
      match dm_tool_calls m with
      | Some (tc :: _) => ([], tc_name tc, tc_arguments tc)
      | _ =>
          match dm_content m with
          | Some (c :: cs) => (py_strip (c :: cs), [], [])
          | _ => ([], [], [])
          end
      end
  end.

(** The handler; [draft_call] is the upstream service, called with the
    keyword arguments the handler built. *)
Definition get_request (st : store) (request_id : pystr)
    (draft_call : list (pystr * json) -> draft_outcome) : outcome * store :=
  match st !! request_id with
  | None => (Raised (HTTPException 404), st)
  | Some r =>
      match build_kwargs (request r) with
      | inl e => (Raised e, st)
      | inr kw =>
          let '(c, tn, ta) := draft_fields (draft_call kw) in
          (Returned (HTMLReviewPage {| page_request := request r; page_id := request_id;
                                      page_content := c; page_tool_name := tn;
                                      page_tool_arguments := ta |}), st)
      end
  end.

(* ===================================================================== *)
(** ** [POST /v1/chat/completions]: [chat_completions]                    *)
(* ===================================================================== *)

(** The loop condition of line 50. *)
Definition still_waiting (st : store) (request_id : pystr) : bool :=
  match st !! request_id with
  | Some r => match response r with None => true | Some _ => false end
  | None => false
  end.

(** Line 55: [JSONResponse(content=response)] renders its body when it is
    built, with [json.dumps(content, ensure_ascii=False, allow_nan=False,
    ...).encode("utf-8")].  [json.dumps] raises [ValueError] on a float that
    is NaN or infinite; the encoding raises [UnicodeEncodeError] on a lone
    surrogate code point in a str.  A float read by [json.loads] is
    [float(lexeme)], correctly rounded: it is infinite when its magnitude is
    at least [float_overflow], the midpoint between the largest finite
    double and [2^1024]. *)
Definition float_overflow : Z := 2 ^ 1024 - 2 ^ 970.

Fixpoint drop_zeros (ds : pystr) : pystr :=
  match ds with
  | 48 :: ds' => drop_zeros ds'
  | _ => ds
  end.

(** Whether [float(lexeme)] is finite, for the lexemes [json.loads] reads
    as floats: [NaN], [Infinity], [-Infinity], and the [NUMBER_RE] lexemes
    with a fraction or an exponent.  The value is [m * 10^e10]; when it has
    [nd] significant digits it lies in [10^(nd+e10-1), 10^(nd+e10)), and
    [10^308 < float_overflow < 10^309]. *)
Definition float_finite (lx : pystr) : bool :=
  if pystr_eqb lx (lit "NaN") || pystr_eqb lx (lit "Infinity")
     || pystr_eqb lx (lit "-Infinity") then false
  else
    let s1 := match lx with 45 :: r => r | _ => lx end in
    let '(ip, r1) := take_digits s1 in
    let '(fp, r2) := match r1 with 46 :: r => take_digits r | _ => ([], r1) end in
    let ev := match r2 with
              | _ :: 45 :: ds => - digits_value ds
              | _ :: 43 :: ds => digits_value ds
              | _ :: ds => digits_value ds
              | [] => 0
              end in
    let mant := drop_zeros (ip ++ fp) in
    let nd := Z.of_nat (length mant) in
    let e10 := ev - Z.of_nat (length fp) in
    match mant with
    | [] => true
    | _ =>
        if nd + e10 <=? 308 then true
        else if 310 <=? nd + e10 then false
        else if 0 <=? e10 then digits_value mant * 10 ^ e10 <? float_overflow
        else digits_value mant <? float_overflow * 10 ^ (- e10)
    end.

Fixpoint json_nonfinite (j : json) : bool :=
  match j with
  | JFloat lx => negb (float_finite lx)
  | JArr l => (fix go (l : list json) : bool :=
                 match l with [] => false | x :: l' => json_nonfinite x || go l' end) l
  | JObj kvs => (fix go (kvs : list (pystr * json)) : bool :=
                   match kvs with
                   | [] => false
                   | (_, x) :: kvs' => json_nonfinite x || go kvs'
                   end) kvs
  | _ => false
  end.

Definition is_surrogate (c : Z) : bool := (55296 <=? c) && (c <=? 57343).

Definition has_surrogate (s : pystr) : bool := existsb is_surrogate s.

(** A str anywhere in the value, dict keys included, holds a lone
    surrogate. *)
Fixpoint json_surrogate (j : json) : bool :=
  match j with
  | JStr s => has_surrogate s
  | JArr l => (fix go (l : list json) : bool :=
                 match l with [] => false | x :: l' => json_surrogate x || go l' end) l
  | JObj kvs => (fix go (kvs : list (pystr * json)) : bool :=
                   match kvs with
                   | [] => false
                   | (k, x) :: kvs' => has_surrogate k || json_surrogate x || go kvs'
                   end) kvs
  | _ => false
  end.

(** [return JSONResponse(content=v)]: [json.dumps] runs to the end before
    the encoding, so a non-finite float is reported first. *)
Definition json_response (v : json) : outcome :=
  if json_nonfinite v then Raised ValueError
  else if json_surrogate v then Raised UnicodeEncodeError
  else Returned (JSONResponse v).

(** Where a run of the handler stands after the observations it was given:
    suspended in [asyncio.sleep], returned, or raised; with the store. *)
Inductive cc_result : Type :=
| CCSuspended
| CCDone (o : outcome) (st : store).

(** Lines 50-55.  [cur] is the store at the loop test; [later] are the
    stores the test sees after each [await asyncio.sleep(1)], other tasks
    having run in between.  Nothing awaits between the test and line 55, so
    lines 53-55 see [cur]; the entry is deleted at line 54 before line 55
    can raise. *)
Fixpoint wait_loop (request_id : pystr) (cur : store) (later : list store) : cc_result :=
  if still_waiting cur request_id then
    match later with
    | [] => CCSuspended
    | nxt :: later' => wait_loop request_id nxt later'
    end
  else
    match cur !! request_id with
    | None => CCDone (Raised KeyError) cur
    | Some r =>
        CCDone (json_response (match response r with Some v => v | None => JNull end))
               (delete request_id cur)
    end.

(** The handler: [request_id] is [str(uuid.uuid4())], [body] the decoded
    request body, [st] the store once [request.json()] has completed. *)
Definition chat_completions (request_id body : pystr) (st : store) (later : list store)
    : cc_result :=
  match json_loads body with
  | None => CCDone (Raised JSONDecodeError) st
  | Some req =>
      wait_loop request_id (<[request_id := {| request := req; response := None |}]> st) later
  end.

(* ===================================================================== *)
(** ** [/v1/{path}]: [proxy_to_openai]                                    *)
(* ===================================================================== *)

(** [str.lower()] on a header name.  ASGI header names are bytes decoded as
    Latin-1, so only code points up to 255 occur: ASCII [A-Z] and Latin-1
    [À-Þ] (but not [×]) have a lower-case form 32 above. *)
Definition py_lower_char (c : Z) : Z :=
  if ((65 <=? c) && (c <=? 90)) || ((192 <=? c) && (c <=? 222) && negb (c =? 215))
  then c + 32 else c.

Definition py_lower (s : pystr) : pystr := map py_lower_char s.

(** The incoming request as the handler sees it: the method, the [path]
    parameter (what follows [/v1/]), the raw query string, Starlette's
    [request.headers.items()] (every header line in arrival order, repeated
    names included) and [await request.body()]. *)
Record client_request : Type := {
  cr_method : pystr;
  cr_path : pystr;
  cr_query : pystr;
  cr_headers : list (pystr * pystr);
  cr_body : list Z
}.

(** The arguments the handler passes to [proxy_client.build_request]:
    the method, the [path] and [query] it gives [httpx.URL], the [headers]
    dict and the body.  httpx then percent-encodes the path and the query
    (characters outside its safe sets, such as a brace) and merges the
    client's default headers in; that normalisation is not modelled, so
    [up_path], [up_query] and [up_headers] are the handler's arguments, not
    the bytes sent upstream. *)
Record upstream_request : Type := {
  up_method : pystr;
  up_path : pystr;
  up_query : pystr;
  up_headers : list (pystr * pystr);
  up_content : list Z
}.

(** The upstream answer: status, raw header lines in order, and the raw
    body chunks [aiter_raw()] yields. *)
Record upstream_response : Type := {
  ur_status : Z;
  ur_headers : list (pystr * pystr);
  ur_chunks : list (list Z)
}.

(** The [StreamingResponse] returned to the client. *)
Record streaming_response : Type := {
  sr_status : Z;
  sr_headers : list (pystr * pystr);
  sr_chunks : list (list Z)
}.

(** Lines 62-64: a dict comprehension over the header lines, skipping
    [host]; a repeated name keeps its first position and its last value. *)
Definition proxy_headers (hs : list (pystr * pystr)) : list (pystr * pystr) :=
  fold_left (fun d kv =>
               if pystr_eqb (py_lower kv.1) (lit "host") then d else dict_set d kv.1 kv.2)
            hs [].

(** [httpx.Headers.items()], which Starlette iterates when it is given
    [headers=rp_resp.headers]: names lower-cased, and the values of a
    repeated name joined with [", "] under its first position.  Response
    header names are ASCII tokens (h11 refuses others), on which
    [bytes.lower()] and [str.lower()] agree. *)
Definition httpx_items (raw : list (pystr * pystr)) : list (pystr * pystr) :=
  fold_left (fun d kv =>
               let k := py_lower kv.1 in
               match dict_lookup d k with
               | Some v0 => dict_set d k (v0 ++ lit ", " ++ kv.2)
               | None => dict_set d k kv.2
               end)
            raw [].

(** The handler; [send] is [proxy_client.send(rp_req, stream=True)], which
    returns the upstream response or raises. *)
Definition proxy_to_openai (req : client_request)
    (send : upstream_request -> py upstream_response)
    : upstream_request * py streaming_response :=
  let rp_req := {| up_method := cr_method req; up_path := cr_path req;
                   up_query := cr_query req; up_headers := proxy_headers (cr_headers req);
                   up_content := cr_body req |} in
  (rp_req,
   let* rp_resp := send rp_req in
   py_ret {| sr_status := ur_status rp_resp; sr_headers := httpx_items (ur_headers rp_resp);
             sr_chunks := ur_chunks rp_resp |}).

(* ===================================================================== *)
(** ** Reading the built response                                         *)
(* ===================================================================== *)

(** [j[k]] on a dict and [j[n]] on a list, as options. *)
Definition jget (k : pystr) (j : json) : option json :=
  match j with JObj kvs => dict_lookup kvs k | _ => None end.

Definition jidx (n : nat) (j : json) : option json :=
  match j with JArr l => nth_error l n | _ => None end.

(** [response["choices"][0]] and its [message]. *)
Definition choice0 (resp : json) : option json :=
  jget (lit "choices") resp ≫= jidx 0.

Definition message0 (resp : json) : option json :=
  choice0 resp ≫= jget (lit "message").

Definition usage_field (k : pystr) (resp : json) : option json :=
  jget (lit "usage") resp ≫= jget k.

(** The response stored for an id, if any. *)
Definition stored_response (st : store) (request_id : pystr) : option json :=
  st !! request_id ≫= response.

(* ===================================================================== *)
(** ** [GET /] and [POST /]: [home]                                       *)
(* ===================================================================== *)

(** Line 93: the ids listed on the home page, those whose [response] is
    still [None].  Python walks [open_requests] in insertion order; a gmap
    has its own key order, so the model fixes which ids are listed and how
    often, not their order. *)
Definition home_ids (st : store) : list pystr :=
  map fst (List.filter (fun kv => match response kv.2 with None => true | Some _ => false end)
                       (map_to_list st)).

(** [len(x.split())] for a form field that is present. *)
Definition field_tokens (o : option pystr) : Z :=
  match o with Some s => Z.of_nat (length (py_split s)) | None => 0 end.

(** A message [prompt_tokens] cannot count: not a dict, or a [content]
    that is there but is not a str ([None], a list of parts, ...). *)
Definition uncountable_message (m : json) : bool :=
  match m with
  | JObj kvs =>
      match dict_lookup kvs (lit "content") with
      | None | Some (JStr _) => false
      | Some _ => true
      end
  | _ => true
  end.

(** The tokens of one countable message; a missing [content] counts 0. *)
Definition message_tokens (m : json) : Z :=
  match m with
  | JObj kvs =>
      match dict_lookup kvs (lit "content") with
      | Some (JStr s) => Z.of_nat (length (py_split s))
      | _ => 0
      end
  | _ => 0
  end.

(** The draft call fails: it raises, or it answers with no choice at all,
    so that [response.choices[0]] raises [IndexError] inside the [try]. *)
Definition draft_fails (o : draft_outcome) : Prop :=
  match o with
  | DraftRaised _ => True
  | DraftCompletion [] => True
  | DraftCompletion (_ :: _) => False
  end.



(** Concrete inputs used by the examples and witnesses below. *)
Definition rid0 : pystr := lit "abc".

Definition req_hi : json :=
  JObj [(lit "messages",
         JArr [JObj [(lit "role", JStr (lit "user")); (lit "content", JStr (lit "hi"))]])].

Definition st_hi : store := {[ rid0 := {| request := req_hi; response := None |} ]}.

(** A passthrough request with the header [accept] sent twice, and an
    upstream that answers with two [set-cookie] lines and two chunks. *)
Definition proxy_req0 : client_request :=
  {| cr_method := lit "GET"; cr_path := lit "models"; cr_query := lit "limit=2";
     cr_headers := [(lit "host", lit "localhost:8000"); (lit "accept", lit "text/plain");
                    (lit "accept", lit "application/json")];
     cr_body := [] |}.

Definition upstream_resp0 : upstream_response :=
  {| ur_status := 200;
     ur_headers := [(lit "set-cookie", lit "a=1"); (lit "set-cookie", lit "b=2")];
     ur_chunks := [[123]; [125]] |}.

Definition send0 (_ : upstream_request) : py upstream_response := inr upstream_resp0.

(** The model of [json.loads] on a few inputs. *)
Example json_loads_obj :
  json_loads (qlit "{`a`: [1, -2.5e3, `x\ty`], `a`: null}")
  = Some (JObj [(lit "a", JNull)]).
Proof. reflexivity. Qed.

Example json_loads_arr :
  json_loads (qlit " [1, -2.5e3, `x\ty`, {}, [], true] ")
  = Some (JArr [JInt 1; JFloat (lit "-2.5e3"); JStr (lit "x" ++ [9] ++ lit "y");
                JObj []; JArr []; JBool true]).
Proof. reflexivity. Qed.

Example json_loads_bad :
  json_loads (lit "{") = None /\ json_loads [] = None /\ json_loads (lit "[1,]") = None
  /\ json_loads (lit "01") = None.
Proof. repeat split; reflexivity. Qed.

(** [float_finite] at the edge of the double range, as [float()] rounds. *)
Example float_finite_limits :
  float_finite (lit "1.7976931348623158e308") = true /\
  float_finite (lit "1.7976931348623159e308") = false /\
  float_finite (lit "1e309") = false /\ float_finite (lit "-1e400") = false /\
  float_finite (lit "0e999999") = true /\ float_finite (lit "1e-400") = true /\
  float_finite (lit "-2.5e3") = true /\ float_finite (lit "NaN") = false.
Proof. vm_compute. repeat split. Qed.


(* ===================================================================== *)
(** ** Basic lemmas                                                       *)
(* ===================================================================== *)

Lemma pystr_eqb_true (a b : pystr) : pystr_eqb a b = true <-> a = b.
Proof. unfold pystr_eqb. case_decide; split; congruence. Qed.

Lemma pystr_eqb_false (a b : pystr) : pystr_eqb a b = false <-> a <> b.
Proof. unfold pystr_eqb. case_decide; split; congruence. Qed.

Lemma pystr_eqb_refl (a : pystr) : pystr_eqb a a = true.
Proof. by apply pystr_eqb_true. Qed.

Lemma dict_lookup_set {V} (d : list (pystr * V)) (k k' : pystr) (v : V) :
  dict_lookup (dict_set d k v) k' = if pystr_eqb k' k then Some v else dict_lookup d k'.
Proof.
  induction d as [| [k0 v0] d IH]; simpl.
  - destruct (pystr_eqb k' k); reflexivity.
  - destruct (pystr_eqb k k0) eqn:E.
    + apply pystr_eqb_true in E as ->. simpl. destruct (pystr_eqb k' k0); reflexivity.
    + simpl. rewrite IH.
      destruct (pystr_eqb k' k0) eqn:E1, (pystr_eqb k' k) eqn:E2; try reflexivity.
      apply pystr_eqb_true in E1, E2. subst. by rewrite pystr_eqb_refl in E.
Qed.

(** [modify_request] on a present id: the existing [response] is not read. *)
Lemma modify_request_present (st : store) request_id r rt c tn ta now u :
  st !! request_id = Some r ->
  modify_request st request_id rt c tn ta now u =
  match build_response request_id (request r) rt c tn ta now u with
  | inl e => (Raised e, st)
  | inr resp =>
      (Returned (RedirectResponse (lit "/")),
       <[request_id := {| request := request r; response := Some resp |}]> st)
  end.
Proof. intros H. unfold modify_request. by rewrite H. Qed.

(** A built response has the literal shape of lines 190-224. *)
Lemma build_response_inv request_id req rt c tn ta now u resp :
  build_response request_id req rt c tn ta now u = inr resp ->
  exists model prompt message completion,
    py_get req (lit "model") (JStr (lit "gpt-3.5-turbo")) = inr model /\
    prompt_tokens req = inr prompt /\
    build_message rt c tn ta u = inr (message, completion) /\
    resp = JObj
      [(lit "id", JStr (lit "chatcmpl-" ++ request_id));
       (lit "object", JStr (lit "chat.completion"));
       (lit "created", JInt now);
       (lit "model", model);
       (lit "choices", JArr [JObj [(lit "index", JInt 0);
                                   (lit "message", message);
                                   (lit "finish_reason", JStr (lit "stop"))]]);
       (lit "usage", JObj [(lit "prompt_tokens", JInt prompt);
                           (lit "completion_tokens", JInt completion);
                           (lit "total_tokens", JInt (prompt + completion))])].
Proof.
  unfold build_response.
  destruct (py_get req _ _) as [e | model]; [discriminate |]. simpl.
  destruct (prompt_tokens req) as [e | prompt]; [discriminate |]. simpl.
  destruct (build_message rt c tn ta u) as [e | [message completion]]; [discriminate |].
  simpl. intros H. inversion H. subst. eauto 10.
Qed.

(** Any [response_type] other than ["content"] takes the tool-call branch. *)
Lemma build_message_not_content rt c tn ta u :
  rt <> lit "content" ->
  build_message rt c tn ta u = build_message (lit "tool_call") c tn ta u.
Proof.
  intros H. unfold build_message.
  assert (E : pystr_eqb rt (lit "content") = false) by (by apply pystr_eqb_false).
  rewrite E. reflexivity.
Qed.

Lemma build_message_tool_inv rt c tn ta u message completion :
  rt <> lit "content" ->
  build_message rt c tn ta u = inr (message, completion) ->
  message = JObj [(lit "tool_calls", JArr [tool_call_json u tn ta]); (lit "content", JNull)].
Proof.
  intros Hrt. rewrite (build_message_not_content _ _ _ _ _ Hrt).
  unfold build_message. simpl.
  destruct (py_str_split (opt_json tn)); [discriminate |]. simpl.
  destruct (py_str_split (opt_json ta)); [discriminate |]. simpl.
  intros H. by inversion H.
Qed.

Lemma built_response_fields request_id model message now prompt completion :
  let resp := JObj
      [(lit "id", JStr (lit "chatcmpl-" ++ request_id));
       (lit "object", JStr (lit "chat.completion"));
       (lit "created", JInt now);
       (lit "model", model);
       (lit "choices", JArr [JObj [(lit "index", JInt 0);
                                   (lit "message", message);
                                   (lit "finish_reason", JStr (lit "stop"))]]);
       (lit "usage", JObj [(lit "prompt_tokens", JInt prompt);
                           (lit "completion_tokens", JInt completion);
                           (lit "total_tokens", JInt (prompt + completion))])] in
  jget (lit "id") resp = Some (JStr (lit "chatcmpl-" ++ request_id)) /\
  jget (lit "object") resp = Some (JStr (lit "chat.completion")) /\
  jget (lit "created") resp = Some (JInt now) /\
  jget (lit "model") resp = Some model /\
  message0 resp = Some message /\
  (choice0 resp ≫= jget (lit "finish_reason")) = Some (JStr (lit "stop")) /\
  jget (lit "choices") resp = Some (JArr [JObj [(lit "index", JInt 0);
                                              (lit "message", message);
                                              (lit "finish_reason", JStr (lit "stop"))]]) /\
  usage_field (lit "prompt_tokens") resp = Some (JInt prompt) /\
  usage_field (lit "completion_tokens") resp = Some (JInt completion) /\
  usage_field (lit "total_tokens") resp = Some (JInt (prompt + completion)).
Proof. repeat split. Qed.

(* ===================================================================== *)
(** ** C1: a second resolve of a resolved entry                           *)
(* ===================================================================== *)

(** Claim C1 (counterexample).  On a store holding one unresolved entry,
    resolving it with "first" and then again with "second" (before the
    waiter consumed it): the second POST /r/{id} does not fail, it
    redirects (307), and the stored response is no longer the first call's. *)
Lemma C1_second_resolve_overwrites :
  let '(o1, st1) := modify_request st_hi rid0 (lit "content") (Some (lit "first")) None None 0 (lit "u") in
  let '(o2, st2) := modify_request st1 rid0 (lit "content") (Some (lit "second")) None None 0 (lit "u") in
  status_of o1 = 307 /\ status_of o2 = 307 /\
  stored_response st2 rid0 <> stored_response st1 rid0.
Proof. vm_compute. split; [reflexivity | split; [reflexivity | discriminate]]. Qed.

(** Claim C1 (amended).  [modify_request] never looks at an entry's
    existing [response]: resolving an id twice, both calls succeed
    whenever each would on the unresolved entry, and after both calls the
    stored response is the one the second call built; other ids are
    untouched. *)
Theorem C1_resolve_twice_keeps_second (st : store) request_id req old
    rt1 c1 tn1 ta1 now1 u1 rt2 c2 tn2 ta2 now2 u2 resp1 resp2
    (Hin : st !! request_id = Some {| request := req; response := old |})
    (H1 : build_response request_id req rt1 c1 tn1 ta1 now1 u1 = inr resp1)
    (H2 : build_response request_id req rt2 c2 tn2 ta2 now2 u2 = inr resp2) :
  let '(o1, st1) := modify_request st request_id rt1 c1 tn1 ta1 now1 u1 in
  let '(o2, st2) := modify_request st1 request_id rt2 c2 tn2 ta2 now2 u2 in
  o1 = Returned (RedirectResponse (lit "/")) /\
  o2 = Returned (RedirectResponse (lit "/")) /\
  stored_response st1 request_id = Some resp1 /\
  stored_response st2 request_id = Some resp2 /\
  (forall k, k <> request_id -> st2 !! k = st !! k).
Proof.
  rewrite (modify_request_present _ _ _ _ _ _ _ _ _ Hin). simpl. rewrite H1.
  rewrite (modify_request_present _ _ _ _ _ _ _ _ _ (lookup_insert_eq _ _ _)). simpl.
  rewrite H2.
  unfold stored_response. rewrite !lookup_insert_eq. simpl.
  repeat split; try reflexivity.
  intros k Hk. rewrite !lookup_insert_ne; congruence.
Qed.

Lemma C1_resolve_twice_keeps_second_witness :
  let '(o1, st1) := modify_request st_hi rid0 (lit "content") (Some (lit "first")) None None 0 (lit "u") in
  let '(o2, st2) := modify_request st1 rid0 (lit "content") (Some (lit "second")) None None 0 (lit "u") in
  o1 = Returned (RedirectResponse (lit "/")) /\
  o2 = Returned (RedirectResponse (lit "/")) /\
  stored_response st1 rid0 = Some (match build_response rid0 req_hi (lit "content") (Some (lit "first")) None None 0 (lit "u")
           with inr r => r | inl _ => JNull end) /\
  stored_response st2 rid0 = Some (match build_response rid0 req_hi (lit "content") (Some (lit "second")) None None 0 (lit "u")
           with inr r => r | inl _ => JNull end) /\
  (forall k, k <> rid0 -> st2 !! k = st_hi !! k).
Proof.
  apply (C1_resolve_twice_keeps_second st_hi rid0 req_hi None);
    [reflexivity | vm_compute; reflexivity | vm_compute; reflexivity].
Defined.

(* ===================================================================== *)
(** ** C2: the content round trip                                         *)
(* ===================================================================== *)

(** Claim C2.  For a pending entry whose payload is a dict with
    [messages = [{"role": "user", "content": "hi"}]], submitting
    [response_type=content, content="hello world"] succeeds and stores a
    response whose first message has [content] "hello world" and no
    [tool_calls], with usage 1 prompt token, 2 completion tokens and 3 in
    total. *)
Theorem C2_content_round_trip (st : store) request_id kvs old now u
    (Hin : st !! request_id = Some {| request := JObj kvs; response := old |})
    (Hmsgs : dict_lookup kvs (lit "messages") =
             Some (JArr [JObj [(lit "role", JStr (lit "user")); (lit "content", JStr (lit "hi"))]])) :
  exists resp,
    modify_request st request_id (lit "content") (Some (lit "hello world")) None None now u
      = (Returned (RedirectResponse (lit "/")),
         <[request_id := {| request := JObj kvs; response := Some resp |}]> st) /\
    (message0 resp ≫= jget (lit "content")) = Some (JStr (lit "hello world")) /\
    (message0 resp ≫= jget (lit "tool_calls")) = None /\
    usage_field (lit "prompt_tokens") resp = Some (JInt 1) /\
    usage_field (lit "completion_tokens") resp = Some (JInt 2) /\
    usage_field (lit "total_tokens") resp = Some (JInt 3).
Proof.
  rewrite (modify_request_present _ _ _ _ _ _ _ _ _ Hin). simpl request.
  unfold build_response, prompt_tokens. cbn [py_get]. rewrite Hmsgs.
  set (model := match dict_lookup kvs (lit "model") with Some v => v | None => _ end).
  eexists. split; [reflexivity |].
  repeat split.
Qed.

Lemma C2_content_round_trip_witness :
  exists resp,
    modify_request st_hi rid0 (lit "content") (Some (lit "hello world")) None None 5 (lit "u")
      = (Returned (RedirectResponse (lit "/")),
         <[rid0 := {| request := req_hi; response := Some resp |}]> st_hi) /\
    (message0 resp ≫= jget (lit "content")) = Some (JStr (lit "hello world")) /\
    (message0 resp ≫= jget (lit "tool_calls")) = None /\
    usage_field (lit "prompt_tokens") resp = Some (JInt 1) /\
    usage_field (lit "completion_tokens") resp = Some (JInt 2) /\
    usage_field (lit "total_tokens") resp = Some (JInt 3).
Proof. apply (C2_content_round_trip st_hi rid0 _ None); reflexivity. Defined.

(* ===================================================================== *)
(** ** C3: a tool-call submission                                         *)
(* ===================================================================== *)

(** Claim C3.  When POST /r/{id} with [response_type=tool_call],
    [tool_name="lookup"] and [tool_arguments='{"q":"x"}'] builds a response,
    its first message has [content] null and exactly one tool call whose
    function [name] and [arguments] are those two strings unchanged: the
    arguments string is stored as it came, never parsed. *)
Theorem C3_tool_call_verbatim (st st' : store) request_id c now u
    (Hok : modify_request st request_id (lit "tool_call") c (Some (lit "lookup"))
             (Some (qlit "{`q`:`x`}")) now u = (Returned (RedirectResponse (lit "/")), st')) :
  exists resp tc,
    stored_response st' request_id = Some resp /\
    (message0 resp ≫= jget (lit "content")) = Some JNull /\
    (message0 resp ≫= jget (lit "tool_calls")) = Some (JArr [tc]) /\
    (jget (lit "function") tc ≫= jget (lit "name")) = Some (JStr (lit "lookup")) /\
    (jget (lit "function") tc ≫= jget (lit "arguments")) = Some (JStr (qlit "{`q`:`x`}")).
Proof.
  unfold modify_request in Hok.
  destruct (st !! request_id) as [r |] eqn:Hin; [| discriminate].
  destruct (build_response _ _ _ _ _ _ _ _) as [e | resp] eqn:Hb; [discriminate |].
  inversion Hok; subst st'. clear Hok.
  apply build_response_inv in Hb as (model & prompt & message & completion & _ & _ & Hm & ->).
  apply build_message_tool_inv in Hm; [| discriminate]. subst message.
  unfold stored_response. rewrite lookup_insert_eq.
  eexists. exists (tool_call_json u (Some (lit "lookup")) (Some (qlit "{`q`:`x`}"))).
  repeat split.
Qed.

Lemma C3_tool_call_verbatim_witness :
  exists resp tc,
    stored_response
      (snd (modify_request st_hi rid0 (lit "tool_call") None (Some (lit "lookup"))
              (Some (qlit "{`q`:`x`}")) 5 (lit "u"))) rid0 = Some resp /\
    (message0 resp ≫= jget (lit "content")) = Some JNull /\
    (message0 resp ≫= jget (lit "tool_calls")) = Some (JArr [tc]) /\
    (jget (lit "function") tc ≫= jget (lit "name")) = Some (JStr (lit "lookup")) /\
    (jget (lit "function") tc ≫= jget (lit "arguments")) = Some (JStr (qlit "{`q`:`x`}")).
Proof.
  apply (C3_tool_call_verbatim st_hi _ rid0 None 5 (lit "u")).
  vm_compute. reflexivity.
Defined.

(* ===================================================================== *)
(** ** C9: the envelope of a built response                               *)
(* ===================================================================== *)

(** Claim C9.  After a successful POST /r/{id} the stored response has
    [id] "chatcmpl-" followed by the id, [object] "chat.completion",
    [created] the current time, [model] the request's [model] field or
    "gpt-3.5-turbo" when it has none, and a [choices] list of exactly one
    choice, whose [finish_reason] is "stop". *)
Theorem C9_response_envelope (st st' : store) request_id rt c tn ta now u
    (Hok : modify_request st request_id rt c tn ta now u
           = (Returned (RedirectResponse (lit "/")), st')) :
  exists r resp ch,
    st !! request_id = Some r /\
    st' !! request_id = Some {| request := request r; response := Some resp |} /\
    jget (lit "id") resp = Some (JStr (lit "chatcmpl-" ++ request_id)) /\
    jget (lit "object") resp = Some (JStr (lit "chat.completion")) /\
    jget (lit "created") resp = Some (JInt now) /\
    jget (lit "model") resp =
      Some (match jget (lit "model") (request r) with
            | Some m => m
            | None => JStr (lit "gpt-3.5-turbo")
            end) /\
    jget (lit "choices") resp = Some (JArr [ch]) /\
    jget (lit "finish_reason") ch = Some (JStr (lit "stop")).
Proof.
  unfold modify_request in Hok.
  destruct (st !! request_id) as [r |] eqn:Hin; [| discriminate].
  destruct (build_response _ _ _ _ _ _ _ _) as [e | resp] eqn:Hb; [discriminate |].
  inversion Hok; subst st'. clear Hok.
  apply build_response_inv in Hb as (model & prompt & message & completion & Hmodel & _ & _ & ->).
  exists r. eexists. eexists.
  split; [reflexivity |]. split; [apply lookup_insert_eq |].
  assert (Hmod : jget (lit "model") (request r) ≫= (fun m => Some m) = Some model
                 \/ (jget (lit "model") (request r) = None /\ model = JStr (lit "gpt-3.5-turbo"))).
  { destruct (request r) as [| | | | | | kvs]; try discriminate. simpl in Hmodel.
    inversion Hmodel. simpl.
    destruct (dict_lookup kvs (lit "model")); [left | right]; auto. }
  repeat split; [].
  simpl. destruct Hmod as [Hm | [Hm ->]].
  - destruct (jget (lit "model") (request r)); simpl in Hm; congruence.
  - by rewrite Hm.
Qed.

Lemma C9_response_envelope_witness :
  exists r resp ch,
    st_hi !! rid0 = Some r /\
    snd (modify_request st_hi rid0 (lit "content") (Some (lit "ok")) None None 42 (lit "u")) !! rid0
      = Some {| request := request r; response := Some resp |} /\
    jget (lit "id") resp = Some (JStr (lit "chatcmpl-" ++ rid0)) /\
    jget (lit "object") resp = Some (JStr (lit "chat.completion")) /\
    jget (lit "created") resp = Some (JInt 42) /\
    jget (lit "model") resp =
      Some (match jget (lit "model") (request r) with
            | Some m => m
            | None => JStr (lit "gpt-3.5-turbo")
            end) /\
    jget (lit "choices") resp = Some (JArr [ch]) /\
    jget (lit "finish_reason") ch = Some (JStr (lit "stop")).
Proof.
  apply (C9_response_envelope st_hi _ rid0 (lit "content") (Some (lit "ok")) None None 42 (lit "u")).
  vm_compute. reflexivity.
Defined.

(* ===================================================================== *)
(** ** C10: [response_type] values other than "content"                   *)
(* ===================================================================== *)

(** [prompt_tokens] and [model] of a dict payload do not depend on the
    form, so a dict payload whose prompt can be counted is resolved as soon
    as the fields the chosen branch splits are present. *)
Lemma build_response_dict_ok request_id kvs rt c tn ta now u prompt :
  prompt_tokens (JObj kvs) = inr prompt ->
  (if pystr_eqb rt (lit "content") then c <> None else tn <> None /\ ta <> None) ->
  exists resp, build_response request_id (JObj kvs) rt c tn ta now u = inr resp.
Proof.
  intros Hp Hf. unfold build_response. cbn [py_get py_bind]. rewrite Hp. cbn [py_bind].
  unfold build_message. destruct (pystr_eqb rt (lit "content")).
  - destruct c; [| congruence]. simpl. eauto.
  - destruct Hf as [Htn Hta]. destruct tn, ta; try congruence. simpl. eauto.
Qed.

(** Inside the handler, every [response_type] other than the exact string
    "content" is handled exactly as "tool_call": same outcome and store; a
    successful call stores a single tool call built from [tool_name] and
    [tool_arguments] with [content] null; on a pending dict payload whose
    prompt can be counted, with both tool fields present, the call
    succeeds. *)
Lemma modify_request_other_types_tool_call (st : store) request_id rt c tn ta now u
    (Hrt : rt <> lit "content") :
  modify_request st request_id rt c tn ta now u
    = modify_request st request_id (lit "tool_call") c tn ta now u /\
  (forall st',
     modify_request st request_id rt c tn ta now u
       = (Returned (RedirectResponse (lit "/")), st') ->
     exists resp,
       stored_response st' request_id = Some resp /\
       message0 resp = Some (JObj [(lit "tool_calls", JArr [tool_call_json u tn ta]);
                                  (lit "content", JNull)])) /\
  (forall r kvs prompt,
     st !! request_id = Some r -> request r = JObj kvs ->
     prompt_tokens (JObj kvs) = inr prompt -> tn <> None -> ta <> None ->
     fst (modify_request st request_id rt c tn ta now u)
       = Returned (RedirectResponse (lit "/"))).
Proof.
  split; [| split].
  - unfold modify_request, build_response.
    by rewrite (build_message_not_content _ _ _ _ _ Hrt).
  - intros st' Hok. unfold modify_request in Hok.
    destruct (st !! request_id) as [r |]; [| discriminate].
    destruct (build_response _ _ _ _ _ _ _ _) as [e | resp] eqn:Hb; [discriminate |].
    inversion Hok; subst st'. clear Hok.
    apply build_response_inv in Hb as (model & prompt & message & completion & _ & _ & Hm & ->).
    apply build_message_tool_inv in Hm; [| exact Hrt]. subst message.
    eexists. unfold stored_response. rewrite lookup_insert_eq. split; reflexivity.
  - intros r kvs prompt Hin Hreq Hp Htn Hta.
    rewrite (modify_request_present _ _ _ _ _ _ _ _ _ Hin), Hreq.
    destruct (build_response_dict_ok request_id kvs rt c tn ta now u prompt Hp) as [resp Hb].
    { assert (E : pystr_eqb rt (lit "content") = false) by (by apply pystr_eqb_false).
      rewrite E. auto. }
    by rewrite Hb.
Qed.

(** [form_field] keeps a non-empty value. *)
Lemma form_field_nonempty (v : pystr) : v <> [] -> form_field (Some v) = Some v.
Proof. destruct v; [congruence | reflexivity]. Qed.

(** Claim C10 (counterexample).  A submission with an empty
    [response_type] is not treated as a tool call: FastAPI finds no value
    for the required field and answers 422 before the handler runs, though
    the handler itself would have taken the tool-call branch and
    succeeded. *)
Lemma C10_empty_response_type_rejected :
  modify_request_route st_hi rid0 (Some []) None (Some (lit "f")) (Some (lit "{}")) 1 (lit "u")
    = (Raised RequestValidationError, st_hi) /\
  status_of (Raised RequestValidationError) = 422 /\
  fst (modify_request st_hi rid0 [] None (Some (lit "f")) (Some (lit "{}")) 1 (lit "u"))
    = Returned (RedirectResponse (lit "/")).
Proof. split; [reflexivity | split; [reflexivity | vm_compute; reflexivity]]. Qed.

(** Claim C10 (amended).  On POST /r/{id}, every non-empty [response_type]
    other than the exact string "content" is handled exactly as
    "tool_call": same outcome and store; a successful submission stores a
    single tool call built from [tool_name] and [tool_arguments] (a field
    sent empty counts as absent, [None]) with [content] null; no such value
    is refused: on a pending dict payload whose prompt can be counted, with
    non-empty tool name and arguments, the submission succeeds.  A missing
    or empty [response_type] is refused with 422 by FastAPI's validation,
    and the store is left unchanged. *)
Theorem C10_nonempty_response_types_are_tool_calls (st : store) (request_id rt : pystr)
    (c tn ta : option pystr) (now : Z) (u : pystr)
    (Hne : rt <> []) (Hrt : rt <> lit "content") :
  modify_request_route st request_id (Some rt) c tn ta now u
    = modify_request_route st request_id (Some (lit "tool_call")) c tn ta now u /\
  (forall st',
     modify_request_route st request_id (Some rt) c tn ta now u
       = (Returned (RedirectResponse (lit "/")), st') ->
     exists resp,
       stored_response st' request_id = Some resp /\
       message0 resp = Some (JObj [(lit "tool_calls",
                                    JArr [tool_call_json u (form_field tn) (form_field ta)]);
                                   (lit "content", JNull)])) /\
  (forall r kvs prompt (tn' ta' : pystr),
     st !! request_id = Some r -> request r = JObj kvs ->
     prompt_tokens (JObj kvs) = inr prompt ->
     tn = Some tn' -> tn' <> [] -> ta = Some ta' -> ta' <> [] ->
     fst (modify_request_route st request_id (Some rt) c tn ta now u)
       = Returned (RedirectResponse (lit "/"))) /\
  modify_request_route st request_id None c tn ta now u = (Raised RequestValidationError, st) /\
  modify_request_route st request_id (Some []) c tn ta now u
    = (Raised RequestValidationError, st) /\
  status_of (Raised RequestValidationError) = 422.
Proof.
  pose proof (modify_request_other_types_tool_call st request_id rt (form_field c)
                (form_field tn) (form_field ta) now u Hrt) as (H1 & H2 & H3).
  unfold modify_request_route. rewrite (form_field_nonempty rt Hne).
  split; [exact H1 |]. split; [exact H2 |].
  split; [| split; [reflexivity | split; reflexivity]].
  intros r kvs prompt tn' ta' Hin Hreq Hp -> Htn -> Hta.
  apply (H3 r kvs prompt Hin Hreq Hp);
    [rewrite (form_field_nonempty tn' Htn) | rewrite (form_field_nonempty ta' Hta)]; discriminate.
Qed.

Lemma C10_nonempty_response_types_are_tool_calls_witness :
  modify_request_route st_hi rid0 (Some (lit "function")) None (Some (lit "f")) (Some (lit "{}")) 1 (lit "u")
    = modify_request_route st_hi rid0 (Some (lit "tool_call")) None (Some (lit "f")) (Some (lit "{}")) 1 (lit "u") /\
  (forall st',
     modify_request_route st_hi rid0 (Some (lit "function")) None (Some (lit "f")) (Some (lit "{}")) 1 (lit "u")
       = (Returned (RedirectResponse (lit "/")), st') ->
     exists resp,
       stored_response st' rid0 = Some resp /\
       message0 resp = Some (JObj [(lit "tool_calls",
                                    JArr [tool_call_json (lit "u") (form_field (Some (lit "f")))
                                            (form_field (Some (lit "{}")))]);
                                   (lit "content", JNull)])) /\
  (forall r kvs prompt (tn' ta' : pystr),
     st_hi !! rid0 = Some r -> request r = JObj kvs ->
     prompt_tokens (JObj kvs) = inr prompt ->
     Some (lit "f") = Some tn' -> tn' <> [] -> Some (lit "{}") = Some ta' -> ta' <> [] ->
     fst (modify_request_route st_hi rid0 (Some (lit "function")) None (Some (lit "f")) (Some (lit "{}")) 1 (lit "u"))
       = Returned (RedirectResponse (lit "/"))) /\
  modify_request_route st_hi rid0 None None (Some (lit "f")) (Some (lit "{}")) 1 (lit "u")
    = (Raised RequestValidationError, st_hi) /\
  modify_request_route st_hi rid0 (Some []) None (Some (lit "f")) (Some (lit "{}")) 1 (lit "u")
    = (Raised RequestValidationError, st_hi) /\
  status_of (Raised RequestValidationError) = 422.
Proof. apply C10_nonempty_response_types_are_tool_calls; discriminate. Defined.

(* ===================================================================== *)
(** ** C4: a body that is not JSON                                        *)
(* ===================================================================== *)

(** Claim C4 (counterexample).  The body "{" is not JSON; the handler raises
    [JSONDecodeError], which nothing catches, so the client gets 500, a
    server error and not a client error. *)
Lemma C4_malformed_body_is_server_error :
  chat_completions rid0 (lit "{") ∅ [] = CCDone (Raised JSONDecodeError) ∅ /\
  status_of (Raised JSONDecodeError) = 500 /\
  ~ (400 <= status_of (Raised JSONDecodeError) < 500).
Proof. split; [reflexivity | split; [reflexivity | simpl; lia]]. Qed.

(** Claim C4 (amended).  For every body that [json.loads] rejects, the
    handler ends at once, before the waiting loop, with the unhandled
    [JSONDecodeError], answered as status 500, and leaves the store exactly
    as it found it: no entry is created, under its id or any other. *)
Theorem C4_malformed_body_creates_no_entry (request_id body : pystr) (st : store)
    (later : list store)
    (Hbad : json_loads body = None) :
  chat_completions request_id body st later = CCDone (Raised JSONDecodeError) st /\
  status_of (Raised JSONDecodeError) = 500.
Proof. unfold chat_completions. rewrite Hbad. auto. Qed.

Lemma C4_malformed_body_creates_no_entry_witness :
  chat_completions (lit "def") (qlit "{`model`: }") st_hi [st_hi]
    = CCDone (Raised JSONDecodeError) st_hi /\
  status_of (Raised JSONDecodeError) = 500.
Proof. apply C4_malformed_body_creates_no_entry. vm_compute. reflexivity. Defined.

(* ===================================================================== *)
(** ** C5: the entry disappears while the caller waits                    *)
(* ===================================================================== *)

(** Once a loop test finds the id gone, the loop stops and line 53 raises
    [KeyError]. *)
Lemma wait_loop_absent (request_id : pystr) (cur : store) (later : list store) :
  cur !! request_id = None ->
  wait_loop request_id cur later = CCDone (Raised KeyError) cur.
Proof.
  intros H. destruct later; simpl; unfold still_waiting; rewrite H; reflexivity.
Qed.

(** Claim C5 (code_bug).  The caller's entry is created unresolved, the
    first loop test waits, and before the next test the entry is removed
    (store ∅).  The loop ends, but [open_requests[request_id]] on line 53
    then raises [KeyError]: the client gets 500 from an unguarded lookup,
    where the review routes answer a missing id with 404 "Request not
    found". *)
Theorem C5_deleted_entry_raises_KeyError :
  chat_completions rid0 (lit "{}") ∅ [∅] = CCDone (Raised KeyError) ∅ /\
  status_of (Raised KeyError) = 500.
Proof.
  split; [vm_compute; reflexivity | reflexivity].
Qed.

(* ===================================================================== *)
(** ** C7: unknown and consumed ids                                       *)
(* ===================================================================== *)

(** When the waiting caller returns, its entry is gone from the store: a
    consumed id is an absent id. *)
Lemma wait_loop_consumes (request_id : pystr) (cur : store) (later : list store) o st' :
  wait_loop request_id cur later = CCDone (Returned o) st' -> st' !! request_id = None.
Proof.
  revert cur. induction later as [| nxt later IH]; intros cur; simpl;
    destruct (still_waiting cur request_id); try discriminate; try apply IH;
    destruct (cur !! request_id); intros H; inversion H; apply lookup_delete_eq.
Qed.

(** Claim C7.  For an id absent from the store (never created, or consumed
    by its waiting caller, see [wait_loop_consumes]), GET /r/{id} and
    POST /r/{id} both raise [HTTPException(404)], whatever the upstream
    draft service and the form, and leave the store unchanged. *)
Theorem C7_absent_id_not_found (st : store) (request_id : pystr)
    (Habs : st !! request_id = None) :
  (forall draft_call, get_request st request_id draft_call = (Raised (HTTPException 404), st)) /\
  (forall rt c tn ta now u,
     modify_request st request_id rt c tn ta now u = (Raised (HTTPException 404), st)) /\
  status_of (Raised (HTTPException 404)) = 404.
Proof.
  split; [| split]; [intros dc | intros rt c tn ta now u | reflexivity];
    [unfold get_request | unfold modify_request]; by rewrite Habs.
Qed.

Lemma C7_absent_id_not_found_witness :
  (forall draft_call, get_request st_hi (lit "zzz") draft_call = (Raised (HTTPException 404), st_hi)) /\
  (forall rt c tn ta now u,
     modify_request st_hi (lit "zzz") rt c tn ta now u = (Raised (HTTPException 404), st_hi)) /\
  status_of (Raised (HTTPException 404)) = 404.
Proof. apply C7_absent_id_not_found. vm_compute. reflexivity. Defined.

(* ===================================================================== *)
(** ** C8: a failing draft call                                           *)
(* ===================================================================== *)


(** The draft call is made for every dict payload. *)
Lemma build_kwargs_dict kvs : exists kw, build_kwargs (JObj kvs) = inr kw.
Proof.
  unfold build_kwargs, add_kwarg. cbn [py_contains py_bind].
  destruct (dict_lookup kvs (lit "messages")) eqn:E1; cbn [py_getitem py_bind py_ret];
    rewrite ?E1; cbn [py_bind];
  destruct (dict_lookup kvs (lit "tools")) eqn:E2; cbn [py_getitem py_bind py_ret];
    rewrite ?E2; cbn [py_bind];
  destruct (dict_lookup kvs (lit "tool_choice")) eqn:E3; cbn [py_getitem py_bind py_ret];
    rewrite ?E3; cbn [py_bind py_ret]; eauto.
Qed.

(** Claim C8.  For a pending entry for which the handler makes the draft
    call, if that call fails with any error, GET /r/{id} still returns the
    review page (status 200) with empty content, tool name and tool
    arguments, and the store is unchanged. *)
Theorem C8_draft_failure_gives_empty_draft (st : store) (request_id : pystr) r kw draft_call
    (Hin : st !! request_id = Some r)
    (Hkw : build_kwargs (request r) = inr kw)
    (Hfail : draft_fails (draft_call kw)) :
  get_request st request_id draft_call
    = (Returned (HTMLReviewPage {| page_request := request r; page_id := request_id;
                                   page_content := []; page_tool_name := [];
                                   page_tool_arguments := [] |}), st) /\
  status_of (fst (get_request st request_id draft_call)) = 200.
Proof.
  unfold get_request. rewrite Hin, Hkw.
  destruct (draft_call kw) as [e | [| m ms]]; [| | contradiction]; split; reflexivity.
Qed.

Lemma C8_draft_failure_gives_empty_draft_witness :
  get_request st_hi rid0 (fun _ => DraftRaised APIError)
    = (Returned (HTMLReviewPage {| page_request := req_hi; page_id := rid0;
                                   page_content := []; page_tool_name := [];
                                   page_tool_arguments := [] |}), st_hi) /\
  status_of (fst (get_request st_hi rid0 (fun _ => DraftRaised APIError))) = 200.
Proof.
  apply (C8_draft_failure_gives_empty_draft st_hi rid0 {| request := req_hi; response := None |}
           (match build_kwargs req_hi with inr kw => kw | inl _ => [] end));
    [reflexivity | vm_compute; reflexivity | exact I].
Defined.

(* ===================================================================== *)
(** ** C6: the passthrough proxy                                          *)
(* ===================================================================== *)






(** Claim C6 (code bug).  The handler means to forward every header but
    Host and to relay upstream's headers, yet the client sends [accept]
    twice and the [headers] dict the handler builds keeps only the last
    [accept], not all non-Host header lines; upstream answers with two
    [set-cookie] lines and the client receives one [set-cookie] line holding
    both values, not upstream's exact headers. *)
Lemma C6_repeated_headers_not_relayed_exactly :
  up_headers (fst (proxy_to_openai proxy_req0 send0))
    = [(lit "accept", lit "application/json")] /\
  up_headers (fst (proxy_to_openai proxy_req0 send0))
    <> filter (fun kv => negb (pystr_eqb (py_lower kv.1) (lit "host"))) (cr_headers proxy_req0) /\
  snd (proxy_to_openai proxy_req0 send0)
    = inr {| sr_status := 200; sr_headers := [(lit "set-cookie", lit "a=1, b=2")];
             sr_chunks := [[123]; [125]] |} /\
  (forall sr, snd (proxy_to_openai proxy_req0 send0) = inr sr ->
     sr_headers sr <> ur_headers upstream_resp0).
Proof.
  split; [vm_compute; reflexivity |].
  split; [vm_compute; discriminate |].
  split; [vm_compute; reflexivity |].
  intros sr H. vm_compute in H. inversion H. subst sr. vm_compute. discriminate.
Qed.


(* ===================================================================== *)
(** ** Further properties of the code                                     *)
(* ===================================================================== *)

Lemma NoDup_map_fst_filter {A B} (f : A * B -> bool) (l : list (A * B)) :
  NoDup (map fst l) -> NoDup (map fst (List.filter f l)).
Proof.
  induction l as [| x l IH]; simpl; intros H; [constructor |].
  inversion H as [| ? ? Hx Hl]; subst.
  destruct (f x); simpl; [constructor |]; auto.
  intros Hin. apply Hx. apply list_elem_of_In. apply list_elem_of_In in Hin.
  rewrite in_map_iff in Hin |- *.
  destruct Hin as [y [Hy Hin]]. apply filter_In in Hin as [Hin _]. eauto.
Qed.

Lemma map_fst_fmap {A B} (l : list (A * B)) : map fst l = l.*1.
Proof. induction l as [| x l IH]; [reflexivity |]. rewrite fmap_cons, <- IH. reflexivity. Qed.

(** The home page lists exactly the pending ids that have no response yet,
    each once. *)
Theorem home_lists_unresolved (st : store) (request_id : pystr) :
  (In request_id (home_ids st) <->
   exists r, st !! request_id = Some r /\ response r = None) /\
  NoDup (home_ids st).
Proof.
  split.
  - unfold home_ids. rewrite in_map_iff. split.
    + intros [[k r] [Hk Hin]]. simpl in Hk. subst k.
      apply filter_In in Hin as [Hin Hnone].
      exists r. split.
      * apply elem_of_map_to_list. by apply list_elem_of_In.
      * simpl in Hnone. destruct (response r); [discriminate | reflexivity].
    + intros [r [Hl Hr]]. exists (request_id, r). split; [reflexivity |].
      apply filter_In. split.
      * apply list_elem_of_In. by apply elem_of_map_to_list.
      * simpl. by rewrite Hr.
  - unfold home_ids. apply NoDup_map_fst_filter.
    rewrite map_fst_fmap. apply NoDup_fst_map_to_list.
Qed.

(** When the loop test finds the entry resolved, the caller removes its
    entry (no other entry changes) and answers [JSONResponse(v)]: status 200
    with [v] as its JSON body when [v] renders, and 500 when [v] holds a
    NaN or infinite float or a lone surrogate; the response is lost either
    way. *)
Theorem wait_loop_resolved (request_id : pystr) (cur : store) (later : list store) req v :
  cur !! request_id = Some {| request := req; response := Some v |} ->
  wait_loop request_id cur later = CCDone (json_response v) (delete request_id cur) /\
  (json_nonfinite v = false -> json_surrogate v = false ->
     json_response v = Returned (JSONResponse v) /\ status_of (json_response v) = 200) /\
  (json_nonfinite v || json_surrogate v = true -> status_of (json_response v) = 500).
Proof.
  intros H. split; [| split].
  - destruct later; cbn [wait_loop]; unfold still_waiting; rewrite H; reflexivity.
  - intros Hf Hs. unfold json_response. rewrite Hf, Hs. split; reflexivity.
  - unfold json_response. destruct (json_nonfinite v); [reflexivity |].
    simpl. intros ->. reflexivity.
Qed.

Lemma wait_loop_resolved_witness :
  wait_loop rid0 {[ rid0 := {| request := req_hi; response := Some (JInt 7) |} ]} []
    = CCDone (json_response (JInt 7))
             (delete rid0 {[ rid0 := {| request := req_hi; response := Some (JInt 7) |} ]}) /\
  (json_nonfinite (JInt 7) = false -> json_surrogate (JInt 7) = false ->
     json_response (JInt 7) = Returned (JSONResponse (JInt 7)) /\
     status_of (json_response (JInt 7)) = 200) /\
  (json_nonfinite (JInt 7) || json_surrogate (JInt 7) = true ->
     status_of (json_response (JInt 7)) = 500).
Proof. apply (wait_loop_resolved _ _ _ req_hi). apply lookup_singleton_eq. Defined.

(** There is no timeout: as long as every loop test finds the entry present
    and unresolved, the caller stays suspended, however many times it has
    slept. *)
Theorem wait_loop_no_timeout (request_id : pystr) (cur : store) (later : list store) :
  Forall (fun s => still_waiting s request_id = true) (cur :: later) ->
  wait_loop request_id cur later = CCSuspended.
Proof.
  revert cur. induction later as [| nxt later IH]; intros cur H;
    inversion H as [| ? ? Hcur Hrest]; subst; cbn [wait_loop]; rewrite Hcur; [reflexivity |].
  by apply IH.
Qed.

Lemma wait_loop_no_timeout_witness :
  wait_loop rid0 st_hi [st_hi; st_hi; st_hi] = CCSuspended.
Proof. apply wait_loop_no_timeout. repeat constructor. Defined.



Lemma build_message_finite rt c tn ta u message completion :
  build_message rt c tn ta u = inr (message, completion) -> json_nonfinite message = false.
Proof.
  unfold build_message. destruct (pystr_eqb rt (lit "content")).
  - destruct c; simpl; intros H; inversion H; reflexivity.
  - destruct tn, ta; simpl; intros H; inversion H; reflexivity.
Qed.

(** The built response holds a non-finite float exactly when the [model]
    it echoes does. *)
Lemma build_response_nonfinite request_id req rt c tn ta now u resp model :
  build_response request_id req rt c tn ta now u = inr resp ->
  py_get req (lit "model") (JStr (lit "gpt-3.5-turbo")) = inr model ->
  json_nonfinite resp = json_nonfinite model.
Proof.
  intros Hb Hm.
  apply build_response_inv in Hb as (model' & prompt & message & completion & Hm' & _ & Hmsg & ->).
  rewrite Hm in Hm'. inversion Hm'; subst model'.
  apply build_message_finite in Hmsg. simpl. rewrite Hmsg.
  destruct (json_nonfinite model); reflexivity.
Qed.

(** A request whose [model] field holds a NaN or infinite float ([NaN],
    [Infinity], or a number such as [1e400] that overflows) is accepted and
    can be resolved, but the waiting caller then fails at line 55 with
    [ValueError] (500), after its entry, and the reviewer's answer with it,
    has been deleted. *)
Theorem nonfinite_model_resolution_fails (request_id body : pystr) (st : store) (req : json)
    (rt : pystr) (c tn ta : option pystr) (now : Z) (u : pystr) (resp model : json)
    (later : list store)
    (Hfresh : st !! request_id = None)
    (Hjson : json_loads body = Some req)
    (Hbuild : build_response request_id req rt c tn ta now u = inr resp)
    (Hmodel : py_get req (lit "model") (JStr (lit "gpt-3.5-turbo")) = inr model)
    (Hnan : json_nonfinite model = true) :
  chat_completions request_id body st
    (snd (modify_request (<[request_id := {| request := req; response := None |}]> st)
            request_id rt c tn ta now u) :: later)
  = CCDone (Raised ValueError) st /\
  status_of (Raised ValueError) = 500.
Proof.
  split; [| reflexivity].
  unfold chat_completions. rewrite Hjson. simpl.
  unfold still_waiting at 1. rewrite lookup_insert_eq. simpl.
  rewrite (modify_request_present _ _ _ _ _ _ _ _ _ (lookup_insert_eq _ _ _)). simpl.
  rewrite Hbuild. simpl.
  rewrite (proj1 (wait_loop_resolved _ _ _ req resp (lookup_insert_eq _ _ _))).
  rewrite delete_insert_eq, delete_insert_eq, delete_id by exact Hfresh.
  unfold json_response. by rewrite (build_response_nonfinite _ _ _ _ _ _ _ _ _ _ Hbuild Hmodel), Hnan.
Qed.

Lemma nonfinite_model_resolution_fails_witness :
  chat_completions rid0 (qlit "{`model`: NaN}") ∅
    (snd (modify_request (<[rid0 := {| request := JObj [(lit "model", JFloat (lit "NaN"))];
                                       response := None |}]> ∅)
            rid0 (lit "content") (Some (lit "ok")) None None 3 (lit "u")) :: [])
  = CCDone (Raised ValueError) ∅ /\
  status_of (Raised ValueError) = 500.
Proof.
  apply (nonfinite_model_resolution_fails rid0 _ ∅ (JObj [(lit "model", JFloat (lit "NaN"))])
           (lit "content") (Some (lit "ok")) None None 3 (lit "u")
           (match build_response rid0 (JObj [(lit "model", JFloat (lit "NaN"))]) (lit "content")
                    (Some (lit "ok")) None None 3 (lit "u") with inr r => r | inl _ => JNull end)
           (JFloat (lit "NaN"))).
  - apply lookup_empty.
  - vm_compute. reflexivity.
  - vm_compute. reflexivity.
  - reflexivity.
  - vm_compute. reflexivity.
Defined.

Lemma build_message_count rt c tn ta u message completion :
  build_message rt c tn ta u = inr (message, completion) ->
  completion = if pystr_eqb rt (lit "content") then field_tokens c
               else field_tokens tn + field_tokens ta.
Proof.
  unfold build_message. destruct (pystr_eqb rt (lit "content")).
  - destruct c; simpl; intros H; inversion H; reflexivity.
  - destruct tn, ta; simpl; intros H; inversion H; reflexivity.
Qed.

(** The usage block of every stored response: [prompt_tokens] is the
    prompt count of the pending request, [completion_tokens] the number of
    whitespace-separated words of [content] (response type "content") or of
    [tool_name] plus those of [tool_arguments] (any other response type),
    and [total_tokens] their sum. *)
Theorem usage_of_stored_response (st st' : store) (request_id rt : pystr)
    (c tn ta : option pystr) (now : Z) (u : pystr)
    (Hok : modify_request st request_id rt c tn ta now u
           = (Returned (RedirectResponse (lit "/")), st')) :
  exists r resp prompt,
    st !! request_id = Some r /\
    stored_response st' request_id = Some resp /\
    prompt_tokens (request r) = inr prompt /\
    usage_field (lit "prompt_tokens") resp = Some (JInt prompt) /\
    usage_field (lit "completion_tokens") resp =
      Some (JInt (if pystr_eqb rt (lit "content") then field_tokens c
                  else field_tokens tn + field_tokens ta)) /\
    usage_field (lit "total_tokens") resp =
      Some (JInt (prompt + if pystr_eqb rt (lit "content") then field_tokens c
                           else field_tokens tn + field_tokens ta)).
Proof.
  unfold modify_request in Hok.
  destruct (st !! request_id) as [r |] eqn:Hin; [| discriminate].
  destruct (build_response _ _ _ _ _ _ _ _) as [e | resp] eqn:Hb; [discriminate |].
  inversion Hok; subst st'. clear Hok.
  apply build_response_inv in Hb as (model & prompt & message & completion & _ & Hp & Hm & ->).
  apply build_message_count in Hm. subst completion.
  exists r. eexists. exists prompt.
  unfold stored_response. rewrite lookup_insert_eq.
  repeat split; assumption.
Qed.

Lemma usage_of_stored_response_witness :
  exists r resp prompt,
    st_hi !! rid0 = Some r /\
    stored_response (snd (modify_request st_hi rid0 (lit "tool_call") None (Some (lit "lookup"))
                            (Some (lit "{ a b }")) 0 (lit "u"))) rid0 = Some resp /\
    prompt_tokens (request r) = inr prompt /\
    usage_field (lit "prompt_tokens") resp = Some (JInt prompt) /\
    usage_field (lit "completion_tokens") resp =
      Some (JInt (if pystr_eqb (lit "tool_call") (lit "content") then field_tokens None
                  else field_tokens (Some (lit "lookup")) + field_tokens (Some (lit "{ a b }")))) /\
    usage_field (lit "total_tokens") resp =
      Some (JInt (prompt + if pystr_eqb (lit "tool_call") (lit "content") then field_tokens None
                           else field_tokens (Some (lit "lookup")) + field_tokens (Some (lit "{ a b }")))).
Proof.
  apply (usage_of_stored_response st_hi _ rid0 (lit "tool_call") None (Some (lit "lookup"))
           (Some (lit "{ a b }")) 0 (lit "u")).
  vm_compute. reflexivity.
Defined.

(** [sum_message_tokens] only ever raises [AttributeError]; it raises
    exactly when some message cannot be counted, and otherwise returns the
    sum of the messages' word counts. *)
Lemma sum_message_tokens_spec (ms : list json) :
  sum_message_tokens ms =
  if existsb uncountable_message ms then inl AttributeError
  else inr (fold_right (fun m acc => message_tokens m + acc) 0 ms).
Proof.
  induction ms as [| m ms IH]; [reflexivity |].
  cbn [sum_message_tokens existsb fold_right].
  destruct m as [| | | | | | kvs]; cbn [py_get py_bind py_raise uncountable_message orb];
    try reflexivity.
  unfold message_tokens at 1. cbn [uncountable_message].
  destruct (dict_lookup kvs (lit "content")) as [[| | | | s | |] |];
    cbn [py_str_split py_bind py_raise py_ret orb]; try reflexivity;
    rewrite IH; destruct (existsb uncountable_message ms); reflexivity.
Qed.

(** The prompt count of a dict payload: 0 without [messages]; for a list of
    messages, the sum of the words of their [content] (a message without
    [content] counts 0) when every message can be counted, and
    [AttributeError] as soon as one cannot. *)
Theorem prompt_tokens_dict (kvs : list (pystr * json)) :
  (dict_lookup kvs (lit "messages") = None -> prompt_tokens (JObj kvs) = inr 0) /\
  (forall ms, dict_lookup kvs (lit "messages") = Some (JArr ms) ->
     prompt_tokens (JObj kvs) =
       if existsb uncountable_message ms then inl AttributeError
       else inr (fold_right (fun m acc => message_tokens m + acc) 0 ms)).
Proof.
  split.
  - intros H. unfold prompt_tokens. cbn [py_get]. rewrite H. reflexivity.
  - intros ms H. unfold prompt_tokens. cbn [py_get]. rewrite H. cbn [py_bind py_ret py_iter].
    apply sum_message_tokens_spec.
Qed.

(** A pending request that cannot be priced can never be resolved: if its
    payload is not a dict, or one of its messages has a [content] that is
    not a str (a [None] content, as assistant tool-call messages have), every
    POST /r/{id} raises [AttributeError], the client gets 500 and the entry
    stays unresolved. *)
Theorem unpriceable_request_never_resolved (st : store) (request_id : pystr) r
    (Hin : st !! request_id = Some r)
    (Hbad : match request r with
            | JObj kvs =>
                exists ms, dict_lookup kvs (lit "messages") = Some (JArr ms) /\
                           existsb uncountable_message ms = true
            | _ => True
            end) :
  forall rt c tn ta now u,
    modify_request st request_id rt c tn ta now u = (Raised AttributeError, st) /\
    status_of (Raised AttributeError) = 500.
Proof.
  intros rt c tn ta now u. split; [| reflexivity].
  rewrite (modify_request_present _ _ _ _ _ _ _ _ _ Hin).
  unfold build_response.
  destruct (request r) as [| | | | | | kvs]; try reflexivity.
  destruct Hbad as [ms [Hms Hex]].
  cbn [py_get py_bind].
  rewrite (proj2 (prompt_tokens_dict kvs) ms Hms), Hex. reflexivity.
Qed.

Lemma unpriceable_request_never_resolved_witness :
  let st := {[ rid0 := {| request := JObj [(lit "messages",
                 JArr [JObj [(lit "role", JStr (lit "assistant")); (lit "content", JNull)]])];
                           response := None |} ]} in
  modify_request st rid0 (lit "content") (Some (lit "ok")) None None 0 (lit "u")
    = (Raised AttributeError, st) /\
  status_of (Raised AttributeError) = 500.
Proof.
  apply (unpriceable_request_never_resolved _ rid0
           {| request := JObj [(lit "messages",
                 JArr [JObj [(lit "role", JStr (lit "assistant")); (lit "content", JNull)]])];
              response := None |}).
  - apply lookup_singleton_eq.
  - eexists. split; reflexivity.
Defined.

(** A form without the field its branch splits fails: response type
    "content" without [content], or any other response type without
    [tool_name] or [tool_arguments], raises [AttributeError] (500) on a
    priceable dict payload and leaves the store unchanged. *)
Theorem missing_form_field_fails (st : store) (request_id rt : pystr) r kvs prompt
    (c tn ta : option pystr) (now : Z) (u : pystr)
    (Hin : st !! request_id = Some r)
    (Hreq : request r = JObj kvs)
    (Hp : prompt_tokens (JObj kvs) = inr prompt)
    (Hmissing : if pystr_eqb rt (lit "content") then c = None else tn = None \/ ta = None) :
  modify_request st request_id rt c tn ta now u = (Raised AttributeError, st) /\
  status_of (Raised AttributeError) = 500.
Proof.
  split; [| reflexivity].
  rewrite (modify_request_present _ _ _ _ _ _ _ _ _ Hin), Hreq.
  unfold build_response. cbn [py_get py_bind]. rewrite Hp. cbn [py_bind].
  unfold build_message. destruct (pystr_eqb rt (lit "content")).
  - subst c. reflexivity.
  - destruct Hmissing as [-> | ->]; [reflexivity |].
    destruct tn; reflexivity.
Qed.

Lemma missing_form_field_fails_witness :
  modify_request st_hi rid0 (lit "tool_call") None (Some (lit "lookup")) None 0 (lit "u")
    = (Raised AttributeError, st_hi) /\
  status_of (Raised AttributeError) = 500.
Proof.
  apply (missing_form_field_fails st_hi rid0 (lit "tool_call")
           {| request := req_hi; response := None |}
           (match req_hi with JObj kvs => kvs | _ => [] end) 1).
  - reflexivity.
  - reflexivity.
  - vm_compute. reflexivity.
  - vm_compute. right. reflexivity.
Defined.

(** Through the route, a field sent empty counts as absent: a reviewer who
    submits response type "content" with an empty content box, or another
    response type with an empty tool name or tool arguments box, gets
    [AttributeError] (500) on a priceable dict payload, and the request
    stays as it was, still waiting. *)
Theorem empty_form_field_fails (st : store) (request_id rt : pystr) r kvs prompt
    (c tn ta : option pystr) (now : Z) (u : pystr)
    (Hin : st !! request_id = Some r)
    (Hreq : request r = JObj kvs)
    (Hp : prompt_tokens (JObj kvs) = inr prompt)
    (Hne : rt <> [])
    (Hempty : if pystr_eqb rt (lit "content") then c = Some []
              else tn = Some [] \/ ta = Some []) :
  modify_request_route st request_id (Some rt) c tn ta now u = (Raised AttributeError, st) /\
  status_of (Raised AttributeError) = 500.
Proof.
  split; [| reflexivity].
  unfold modify_request_route. rewrite (form_field_nonempty rt Hne).
  rewrite (modify_request_present _ _ _ _ _ _ _ _ _ Hin), Hreq.
  unfold build_response. cbn [py_get py_bind]. rewrite Hp. cbn [py_bind].
  unfold build_message. destruct (pystr_eqb rt (lit "content")).
  - subst c. reflexivity.
  - destruct Hempty as [-> | ->]; [reflexivity |].
    destruct tn as [[| ? ?] |]; reflexivity.
Qed.

Lemma empty_form_field_fails_witness :
  modify_request_route st_hi rid0 (Some (lit "content")) (Some []) None None 0 (lit "u")
    = (Raised AttributeError, st_hi) /\
  status_of (Raised AttributeError) = 500.
Proof.
  apply (empty_form_field_fails st_hi rid0 (lit "content")
           {| request := req_hi; response := None |}
           (match req_hi with JObj kvs => kvs | _ => [] end) 1).
  - reflexivity.
  - reflexivity.
  - vm_compute. reflexivity.
  - discriminate.
  - vm_compute. reflexivity.
Defined.

Lemma add_kwarg_dict kvs key kw :
  add_kwarg (JObj kvs) key kw =
  inr (match dict_lookup kvs key with Some v => dict_set kw key v | None => kw end).
Proof.
  unfold add_kwarg. cbn [py_contains py_bind].
  destruct (dict_lookup kvs key) eqn:E; cbn [py_bind py_getitem]; [rewrite E |]; reflexivity.
Qed.

Lemma add_kwarg_step (kvs : list (pystr * json)) (keys : list pystr) key kw :
  (forall k, dict_lookup kw k = if existsb (pystr_eqb k) keys then dict_lookup kvs k else None) ->
  forall k,
    dict_lookup (match dict_lookup kvs key with Some v => dict_set kw key v | None => kw end) k
    = if existsb (pystr_eqb k) (key :: keys) then dict_lookup kvs k else None.
Proof.
  intros Hkw k. cbn [existsb].
  destruct (pystr_eqb k key) eqn:Ek; cbn [orb].
  - apply pystr_eqb_true in Ek. subst key.
    destruct (dict_lookup kvs k) eqn:E.
    + rewrite dict_lookup_set, pystr_eqb_refl. reflexivity.
    + rewrite Hkw, E. destruct (existsb _ keys); reflexivity.
  - destruct (dict_lookup kvs key); [rewrite dict_lookup_set, Ek |]; apply Hkw.
Qed.

(** For a dict payload the upstream draft call receives exactly the
    [messages], [tools] and [tool_choice] entries the payload has, with the
    same values, and nothing else (in particular not its [model]). *)
Theorem draft_kwargs_dict (kvs : list (pystr * json)) :
  exists kw, build_kwargs (JObj kvs) = inr kw /\
    forall k, dict_lookup kw k =
      if existsb (pystr_eqb k) [lit "messages"; lit "tools"; lit "tool_choice"]
      then dict_lookup kvs k else None.
Proof.
  unfold build_kwargs. rewrite add_kwarg_dict. cbn [py_bind].
  rewrite add_kwarg_dict. cbn [py_bind]. rewrite add_kwarg_dict.
  eexists. split; [reflexivity |]. intros k.
  assert (Horder : existsb (pystr_eqb k) [lit "messages"; lit "tools"; lit "tool_choice"]
                   = existsb (pystr_eqb k) [lit "tool_choice"; lit "tools"; lit "messages"]).
  { cbn [existsb]. destruct (pystr_eqb k (lit "messages")), (pystr_eqb k (lit "tools")),
      (pystr_eqb k (lit "tool_choice")); reflexivity. }
  rewrite Horder. clear Horder. revert k.
  apply add_kwarg_step. apply add_kwarg_step. apply add_kwarg_step.
  intros k. reflexivity.
Qed.



(** A pending payload that is a number, a bool or null makes the review
    page fail: [in] on it raises [TypeError] before any draft call, so
    GET /r/{id} answers 500 whatever upstream would say. *)
Theorem review_page_scalar_payload_fails (st : store) (request_id : pystr) r
    (Hin : st !! request_id = Some r)
    (Hscalar : match request r with JObj _ | JArr _ | JStr _ => False | _ => True end) :
  forall draft_call,
    get_request st request_id draft_call = (Raised TypeError, st) /\
    status_of (Raised TypeError) = 500.
Proof.
  intros draft_call. split; [| reflexivity].
  unfold get_request. rewrite Hin.
  destruct (request r); try contradiction; reflexivity.
Qed.

Lemma review_page_scalar_payload_fails_witness :
  get_request {[ rid0 := {| request := JInt 5; response := None |} ]} rid0
    (fun _ => DraftRaised APIError)
    = (Raised TypeError, {[ rid0 := {| request := JInt 5; response := None |} ]}) /\
  status_of (Raised TypeError) = 500.
Proof.
  apply (review_page_scalar_payload_fails _ rid0 {| request := JInt 5; response := None |}).
  - apply lookup_singleton_eq.
  - exact I.
Defined.

(** POST /r/{id} touches nothing but the [response] of its own id: it adds
    and removes no entry, keeps every request payload, and leaves every
    other entry as it was. *)
Theorem modify_request_frame (st : store) (request_id rt : pystr)
    (c tn ta : option pystr) (now : Z) (u : pystr) :
  let st' := snd (modify_request st request_id rt c tn ta now u) in
  dom st' = dom st /\
  (forall k, k <> request_id -> st' !! k = st !! k) /\
  request <$> st' !! request_id = request <$> st !! request_id.
Proof.
  unfold modify_request.
  destruct (st !! request_id) as [r |] eqn:Hin; [| simpl; rewrite ?Hin; repeat split; auto].
  destruct (build_response _ _ _ _ _ _ _ _); simpl; [rewrite ?Hin; repeat split; auto |].
  split; [| split].
  - apply dom_insert_lookup_L. by rewrite Hin.
  - intros k Hk. by rewrite lookup_insert_ne.
  - by rewrite lookup_insert_eq.
Qed.

Lemma split_go_tokens (s cur : pystr) :
  Forall (fun c => py_isspace c = false) cur ->
  Forall (fun t => t <> [] /\ Forall (fun c => py_isspace c = false) t) (split_go s cur).
Proof.
  revert cur. induction s as [| c s IH]; intros cur Hcur; simpl.
  - destruct cur as [| x xs]; constructor; [| constructor].
    split; [simpl; intros Hr; symmetry in Hr; by eapply app_cons_not_nil |
            by apply Forall_rev].
  - destruct (py_isspace c) eqn:Hc.
    + destruct cur as [| x xs]; [by apply IH |].
      constructor; [| by apply IH].
      split; [simpl; intros Hr; symmetry in Hr; by eapply app_cons_not_nil |
            by apply Forall_rev].
    + apply IH. by constructor.
Qed.

Lemma split_go_app_space (a b cur : pystr) (c : Z) :
  py_isspace c = true ->
  split_go (a ++ c :: b) cur = split_go a cur ++ split_go b [].
Proof.
  intros Hc. revert cur. induction a as [| x a IH]; intros cur; simpl.
  - rewrite Hc. destruct cur; reflexivity.
  - destruct (py_isspace x).
    + destruct cur; rewrite IH; reflexivity.
    + apply IH.
Qed.

(** [str.split()], which every token count uses: it yields non-empty words
    without whitespace, and splitting around a whitespace character adds
    up, so the word count of [a + " " + b] is the count of [a] plus the count
    of [b]. *)
Theorem py_split_words (a b : pystr) (c : Z) :
  Forall (fun t => t <> [] /\ Forall (fun x => py_isspace x = false) t) (py_split a) /\
  (py_isspace c = true -> py_split (a ++ c :: b) = py_split a ++ py_split b).
Proof.
  split.
  - apply split_go_tokens. constructor.
  - apply split_go_app_space.
Qed.

(** A string made only of whitespace has no words, so its count is 0. *)
Theorem py_split_blank (s : pystr) :
  Forall (fun c => py_isspace c = true) s -> py_split s = [].
Proof.
  unfold py_split. induction s as [| c s IH]; intros H; [reflexivity |].
  inversion H; subst. simpl. rewrite H2. by apply IH.
Qed.

Lemma py_split_blank_witness : py_split [32; 9; 10; 12288] = [].
Proof. apply py_split_blank. repeat constructor. Defined.
